(** * Regulación de honorarios (UMA) — P1/P2: verification of honorarios.py

    A shallow embedding of the calculation code of [honorarios.py]: the
    scale of art. 21 ([ESCALA]), the bracket lookup ([buscar_tramo]), the
    P1/P2 regulation ([calcular_uma_p1p2]) and the body of
    [RegulacionUMA.calcular] (update by P 14.290, conversion to UMA,
    validation errors).

    Conventions of the embedding.
    - A Python [float] is read as an exact rational ([Q]); equalities between
      computed amounts are stated with [==].  A decimal literal of the source
      ([0.22], [1.4]) is the rational it denotes.
    - A raised exception is a value of [excepcion]; code that can raise
      returns a [Res].
    - A [datetime.date] is its (year, month, day) triple, compared
      lexicographically as Python compares dates.
    - The text of an input widget is represented by what
      [parse_float_robusto] returns on it; the HTML rendering of the result
      is represented by the record of the values it prints. *)

From Stdlib Require Import QArith Qminmax Qabs ZArith NArith List Bool String.
From Stdlib Require Import Lia Lqa.
From Stdlib Require Import Permutation.
Import ListNotations.

Open Scope Q_scope.

(** ** Exceptions *)

Inductive excepcion : Type :=
| ValueError (msg : string)
| ZeroDivisionError
| IndexError.

Inductive Res (A : Type) : Type :=
| Ok (a : A)
| Raise (e : excepcion).

Arguments Ok {A} a.
Arguments Raise {A} e.

Definition bind {A B : Type} (c : Res A) (k : A -> Res B) : Res B :=
  match c with
  | Ok a => k a
  | Raise e => Raise e
  end.

Notation "x <- c ;; k" := (bind c (fun x => k))
  (at level 61, c at next level, right associativity).
Notation "' p <- c ;; k" := (bind c (fun x => let p := x in k))
  (at level 61, p pattern, c at next level, right associativity).

(** [str(e)] as Python prints the exception in the error dialog. *)
Definition str_exc (e : excepcion) : string :=
  match e with
  | ValueError msg => msg
  | ZeroDivisionError => "float division by zero"
  | IndexError => "list index out of range"
  end.

(** ** Python primitives on numbers and lists *)

Definition Qlt_bool (x y : Q) : bool := negb (Qle_bool y x).

(** [min(a, b)]: the first argument unless the second is strictly smaller. *)
Definition py_min (a b : Q) : Q := if Qlt_bool b a then b else a.

(** [max(a, b)]: the first argument unless the second is strictly greater. *)
Definition py_max (a b : Q) : Q := if Qlt_bool a b then b else a.

(** [a / b] on floats raises [ZeroDivisionError] when [b] is zero. *)
Definition py_div (a b : Q) : Res Q :=
  if Qeq_bool b 0 then Raise ZeroDivisionError else Ok (a / b).

(** [l[i]] for a non-negative index. *)
Definition item {A : Type} (l : list A) (i : nat) : Res A :=
  match nth_error l i with
  | Some x => Ok x
  | None => Raise IndexError
  end.

(** ** Escala (art. 21 Ley 27.423) *)

Record Tramo : Type := mkTramo {
  min_uma : Q;
  max_uma : option Q;
  pct_min : Q;
  pct_max : Q
}.

Definition ESCALA : list Tramo := [
  mkTramo 0   (Some 15)  0.22 0.33;
  mkTramo 16  (Some 45)  0.20 0.26;
  mkTramo 46  (Some 90)  0.18 0.24;
  mkTramo 91  (Some 150) 0.17 0.22;
  mkTramo 151 (Some 450) 0.15 0.20;
  mkTramo 451 (Some 750) 0.13 0.17;
  mkTramo 751 None       0.12 0.15
].

(** The test of the loop body of [buscar_tramo]: is [uma_total] within [t]? *)
Definition en_tramo (t : Tramo) (uma_total : Q) : bool :=
  match max_uma t with
  | None => Qle_bool (min_uma t) uma_total
  | Some mx => Qle_bool (min_uma t) uma_total && Qle_bool uma_total mx
  end.

(** The [for i, t in enumerate(...)] loop, from index [i] over the rest [l]
    of the list; [None] when the loop ends without returning. *)
Fixpoint buscar_desde (i : nat) (l : list Tramo) (uma_total : Q)
  : option (nat * Tramo) :=
  match l with
  | [] => None
  | t :: resto =>
      if en_tramo t uma_total then Some (i, t)
      else buscar_desde (S i) resto uma_total
  end.

Definition buscar_tramo (uma_total : Q) : Res (nat * Tramo) :=
  match buscar_desde 0 ESCALA uma_total with
  | Some r => Ok r
  | None => t0 <- item ESCALA 0 ;; Ok (0%nat, t0)
  end.

(** ** Cálculo UMA (art. 21) — P1/P2 *)

Record Det : Type := mkDet {
  tramo_actual : Tramo;
  p1_uma : Q;
  p2_uma : Q;
  pct_prev_max : Q;
  pct_act_base_min : Q;
  pct_p1_eff : Q;
  pct_p2_eff : Q;
  res_a_uma : Q;
  res_b_uma : Q
}.

(** Lines 75-81: the top of the previous bracket and its maximum rate. *)
Definition tramo_previo (idx : nat) : Res (Q * Q) :=
  if Nat.eqb idx 0 then Ok (0, 0)
  else
    tramo_prev <- item ESCALA (idx - 1) ;;
    Ok (match max_uma tramo_prev with Some m => m | None => 0 end,
        pct_max tramo_prev).

(** Lines 88-94: the multiplier of the three adjustments. *)
Definition multiplicador (es_apoderado mitad_art41 aplicar_menos10 : bool) : Q :=
  let mult := 1 in
  let mult := if es_apoderado then mult * 1.4 else mult in
  let mult := if mitad_art41 then mult * 0.5 else mult in
  let mult := if aplicar_menos10 then mult * 0.9 else mult in
  mult.

Definition calcular_uma_p1p2 (uma_total : Q)
    (es_apoderado mitad_art41 aplicar_menos10 : bool) : Res (Q * Det) :=
  '(idx, tramo_act) <- buscar_tramo uma_total ;;
  '(prev_max_uma, pct_prev) <- tramo_previo idx ;;
  let p1_uma := py_min uma_total prev_max_uma in
  let p2_uma := py_max 0 (uma_total - p1_uma) in
  let pct_act_base := pct_min tramo_act in
  let mult := multiplicador es_apoderado mitad_art41 aplicar_menos10 in
  let pct_p1_eff := pct_prev * mult in
  let pct_p2_eff := pct_act_base * mult in
  let res_a := p1_uma * pct_p1_eff in
  let res_b := p2_uma * pct_p2_eff in
  let total := res_a + res_b in
  Ok (total,
      mkDet tramo_act p1_uma p2_uma pct_prev pct_act_base
            pct_p1_eff pct_p2_eff res_a res_b).

(** ** RegulacionUMA.calcular *)

Record date : Type := mkDate { year : Z; month : Z; day : Z }.

(** [a >= b] on dates. *)
Definition date_geb (a b : date) : bool :=
  if (year a =? year b)%Z then
    if (month a =? month b)%Z then (day b <=? day a)%Z
    else (month b <? month a)%Z
  else (year b <? year a)%Z.

(** The input widgets of the form.  A numeric field holds what
    [parse_float_robusto] returns on its text ([Raise] when the text is empty
    or malformed); [edt_uma_pago] is [None] when its text is blank. *)
Record Formulario : Type := mkFormulario {
  edt_cap_planilla : Res Q;
  edt_int_planilla : Res Q;
  dt_corte : date;
  dt_calculo : date;
  edt_to : Res Q;
  edt_tm : Res Q;
  edt_uma_calc : Res Q;
  chk_apoderado : bool;
  chk_mitad41 : bool;
  chk_sin_exc : bool;
  edt_uma_pago : option (Res Q)
}.

(** The values that the result pane prints. *)
Record Salida : Type := mkSalida {
  cap_planilla : Q;
  int_planilla : Q;
  t_o : Q;
  t_m : Q;
  factor : Q;
  interes_adic : Q;
  base_reg : Q;
  uma_calc_val : Q;
  uma_total : Q;
  det : Det;
  honor_uma : Q;
  pesos_pago : option Q
}.

Definition msg_fecha : string :=
  "La fecha de corte debe ser ANTERIOR a la fecha de cálculo.".

Definition msg_uma : string :=
  "Ingrese un valor de UMA a la fecha de cálculo mayor que 0.".

(** The body of the [try] block of [calcular].  The dates [desde] and
    [hasta_incl] are only printed and are left out ([corte + 1 day] is
    computed after the date check, so it is at most [fcalc] and cannot
    overflow). *)
Definition calcular_try (f : Formulario) : Res Salida :=
  cap_planilla <- edt_cap_planilla f ;;
  int_planilla <- edt_int_planilla f ;;
  let corte := dt_corte f in
  let fcalc := dt_calculo f in
  _ <- (if date_geb corte fcalc then Raise (ValueError msg_fecha) else Ok tt) ;;
  let total_planilla := cap_planilla + int_planilla in
  t_o <- edt_to f ;;
  t_m <- edt_tm f ;;
  cociente <- py_div (100 + t_m) (100 + t_o) ;;
  let factor := cociente - 1 in
  let interes_adic := cap_planilla * factor in
  let base_reg := total_planilla + interes_adic in
  uma_calc_val <- edt_uma_calc f ;;
  _ <- (if Qle_bool uma_calc_val 0 then Raise (ValueError msg_uma) else Ok tt) ;;
  uma_total <- py_div base_reg uma_calc_val ;;
  let aplicar_menos10 := chk_sin_exc f in
  '(honor_uma, det) <- calcular_uma_p1p2 uma_total (chk_apoderado f)
                                         (chk_mitad41 f) aplicar_menos10 ;;
  pesos_pago <- match edt_uma_pago f with
                | None => Ok None
                | Some r =>
                    uma_pago <- r ;;
                    Ok (if Qlt_bool 0 uma_pago then Some (honor_uma * uma_pago)
                        else None)
                end ;;
  Ok (mkSalida cap_planilla int_planilla t_o t_m factor interes_adic base_reg
               uma_calc_val uma_total det honor_uma pesos_pago).

(** The widget: its inputs, the result pane ([None] while empty) and the
    error dialogs shown so far. *)
Record Ventana : Type := mkVentana {
  form : Formulario;
  out : option Salida;
  dialogos : list string
}.

(** [calcular]: the [try] body, and [except Exception as e] showing
    [str(e)] in a dialog without touching the result pane. *)
Definition calcular (w : Ventana) : Ventana :=
  match calcular_try (form w) with
  | Ok s => mkVentana (form w) (Some s) (dialogos w)
  | Raise e => mkVentana (form w) (out w) (dialogos w ++ [str_exc e])
  end.

(** ** Utilidades: parse_float_robusto, fmt_num *)

(** A Python [str] is the list of its code points. *)
Definition texto : Type := list N.

Definition coma : N := 44%N.
Definition punto : N := 46%N.
Definition equis : N := 88%N.

(** The code points that [str.strip()] removes: those for which
    [str.isspace()] holds (U+0009-000D, U+001C-0020, U+0085, U+00A0, U+1680,
    U+2000-200A, U+2028, U+2029, U+202F, U+205F, U+3000). *)
Definition es_espacio (c : N) : bool :=
  ((9 <=? c) && (c <=? 13) || (28 <=? c) && (c <=? 32) ||
   (c =? 133) || (c =? 160) || (c =? 5760) ||
   (8192 <=? c) && (c <=? 8202) ||
   (c =? 8232) || (c =? 8233) || (c =? 8239) || (c =? 8287) ||
   (c =? 12288))%N.

Fixpoint lstrip (s : texto) : texto :=
  match s with
  | [] => []
  | c :: r => if es_espacio c then lstrip r else s
  end.

Definition rstrip (s : texto) : texto := rev (lstrip (rev s)).

(** [s.strip()] *)
Definition strip (s : texto) : texto := rstrip (lstrip s).

(** [c in s], for a one-character [c]. *)
Definition contiene (c : N) (s : texto) : bool := existsb (N.eqb c) s.

(** [s.replace(old, new)], for a one-character [old]. *)
Definition replace (old : N) (new : texto) (s : texto) : texto :=
  flat_map (fun c => if (c =? old)%N then new else [c]) s.

Definition msg_vacia : string := "Entrada vacía.".

(** Lines 30-33 of [parse_float_robusto]: the text handed to [float]. *)
Definition normalizar_separadores (s : texto) : texto :=
  if contiene coma s && contiene punto s
  then replace coma [punto] (replace punto [] s)
  else replace coma [punto] s.

(** [parse_float_robusto]; the builtin [float] is the parameter
    [py_float]. *)
Definition parse_float_robusto (py_float : texto -> Res Q) (t : texto)
  : Res Q :=
  match strip t with
  | [] => Raise (ValueError msg_vacia)
  | s => py_float (normalizar_separadores s)
  end.

(** The three chained [replace] of [fmt_num]. *)
Definition intercambiar_separadores (s : texto) : texto :=
  replace equis [punto] (replace punto [coma] (replace coma [equis] s)).

(** [fmt_num]; the format [f"{x:,.{nd}f}"] of the language is the
    parameter [formato]. *)
Definition fmt_num (formato : Q -> nat -> texto) (x : Q) (nd : nat) : texto :=
  intercambiar_separadores (formato x nd).

(** ** RegulacionUMA.limpiar *)



(** ** VentanaPrincipal.__init__: the size asked for *)

(** [int(x)] on a float: truncation towards zero. *)
Definition py_int (x : Q) : Z := Z.quot (Qnum x) (Zpos (Qden x)).

(** The arguments of [self.resize(ancho, alto)], for an available screen
    of [w] by [h] pixels. *)
Definition tamano_ventana (w h : Z) : Z * Z :=
  (Z.min 1000 (py_int (inject_Z w * 0.9)),
   Z.min 760 (py_int (inject_Z h * 0.9))).

(** The arguments of [self.setMinimumSize(820, 640)]. *)
Definition tamano_minimo : Z * Z := (820%Z, 640%Z).

(** * Vocabulary of the statements *)

(** The payment field of a form whose text, when present, parses. *)
Definition pago_de (uma_pago : option Q) : option (Res Q) :=
  option_map Ok uma_pago.

(** A form all of whose numeric fields parse. *)
Definition formulario_de (cap int : Q) (corte fcalc : date) (to tm uma : Q)
    (a b c : bool) (uma_pago : option Q) : Formulario :=
  mkFormulario (Ok cap) (Ok int) corte fcalc (Ok to) (Ok tm) (Ok uma)
               a b c (pago_de uma_pago).

(** The totals that lie strictly between the top of a bracket and the
    bottom of the next one. *)
Definition en_hueco (x : Q) : Prop :=
  15 < x < 16 \/ 45 < x < 46 \/ 90 < x < 91 \/
  150 < x < 151 \/ 450 < x < 451 \/ 750 < x < 751.

(** The three adjustments, to state the multiplier as the specification
    words it: each adjustment that is enabled multiplies by its
    coefficient, in whatever order the adjustments are taken. *)
Inductive ajuste : Type := Apoderado | MitadArt41 | Menos10.

Definition coeficiente (j : ajuste) : Q :=
  match j with
  | Apoderado => 1.4
  | MitadArt41 => 0.5
  | Menos10 => 0.9
  end.

Definition habilitado (es_apoderado mitad_art41 aplicar_menos10 : bool)
    (j : ajuste) : bool :=
  match j with
  | Apoderado => es_apoderado
  | MitadArt41 => mitad_art41
  | Menos10 => aplicar_menos10
  end.

Definition aplicar_ajuste (a b c : bool) (mult : Q) (j : ajuste) : Q :=
  if habilitado a b c j then mult * coeficiente j else mult.

Definition multiplicador_en_orden (a b c : bool) (orden : list ajuste) : Q :=
  fold_left (aplicar_ajuste a b c) orden 1.

Definition factor_de (a b c : bool) (j : ajuste) : Q :=
  if habilitado a b c j then coeficiente j else 1.

(** [x] is [v] up to [tol]. *)
Definition aprox (x v tol : Q) : Prop := Qabs (x - v) <= tol.

(** The form of the example: capital 15,000,000, interest 5,000,000,
    t_o = 62.15, t_m = 74.80, UMA value 20,567.79. *)
Definition ejemplo (corte fcalc : date) (a b c : bool) (uma_pago : option Q)
  : Formulario :=
  formulario_de 15000000 5000000 corte fcalc 62.15 74.80 20567.79
                a b c uma_pago.

(** A comma for a dot and a dot for a comma. *)
Definition intercambiar (c : N) : N :=
  if (c =? coma)%N then punto else if (c =? punto)%N then coma else c.

(** The totals that lie within some bracket of the scale. *)
Definition en_escala (x : Q) : Prop :=
  exists t, In t ESCALA /\ en_tramo t x = true.

(** The two separators of a numeral. *)
Definition es_separador (c : N) : bool := ((c =? coma) || (c =? punto))%N.

(** The characters of a text other than separators, in order. *)
Definition sin_separadores (s : texto) : texto :=
  filter (fun c => negb (es_separador c)) s.

(** * Properties *)

(** ** Comparisons and Python's [min] and [max] *)

Lemma Qle_bool_true (x y : Q) : x <= y -> Qle_bool x y = true.
Proof. apply Qle_bool_iff. Qed.

Lemma Qle_bool_false (x y : Q) : y < x -> Qle_bool x y = false.
Proof.
  intros H. destruct (Qle_bool x y) eqn:E; [|reflexivity].
  apply Qle_bool_iff in E. lra.
Qed.

Lemma Qlt_bool_iff (x y : Q) : Qlt_bool x y = true <-> x < y.
Proof.
  unfold Qlt_bool. destruct (Qle_bool y x) eqn:E; simpl.
  - apply Qle_bool_iff in E. split; [discriminate | lra].
  - split; [intros _ | reflexivity].
    destruct (Qlt_le_dec x y) as [H|H]; [exact H|].
    apply Qle_bool_iff in H. congruence.
Qed.

Lemma Qlt_bool_true (x y : Q) : x < y -> Qlt_bool x y = true.
Proof. apply Qlt_bool_iff. Qed.

Lemma Qlt_bool_false (x y : Q) : y <= x -> Qlt_bool x y = false.
Proof.
  intros H. destruct (Qlt_bool x y) eqn:E; [|reflexivity].
  apply Qlt_bool_iff in E. lra.
Qed.

Lemma py_min_Qmin (a b : Q) : py_min a b == Qmin a b.
Proof.
  unfold py_min. destruct (Qlt_bool b a) eqn:E.
  - apply Qlt_bool_iff in E. symmetry. apply Q.min_r. lra.
  - symmetry. apply Q.min_l. destruct (Qlt_le_dec b a) as [H|H]; [|exact H].
    apply Qlt_bool_iff in H. congruence.
Qed.


(** Settles every comparison of the goal from the hypotheses in context. *)
Ltac decide_cmp :=
  repeat match goal with
  | |- context [Qle_bool ?a ?b] =>
      first [ rewrite (Qle_bool_true a b) by (simpl; lra)
            | rewrite (Qle_bool_false a b) by (simpl; lra) ]
  | |- context [Qlt_bool ?a ?b] =>
      first [ rewrite (Qlt_bool_true a b) by (simpl; lra)
            | rewrite (Qlt_bool_false a b) by (simpl; lra) ]
  end.

(** ** The loop of [buscar_tramo] *)

(** What the loop returns is the first bracket of the list that contains
    the total. *)
Lemma buscar_desde_Some (l : list Tramo) (x : Q) :
  forall i j t,
    buscar_desde i l x = Some (j, t) ->
    exists k, j = (i + k)%nat /\ nth_error l k = Some t /\
              en_tramo t x = true /\
              forall k' t', (k' < k)%nat -> nth_error l k' = Some t' ->
                            en_tramo t' x = false.
Proof.
  induction l as [|t0 resto IH]; intros i j t H; simpl in H; [discriminate|].
  destruct (en_tramo t0 x) eqn:E.
  - inversion H; subst. exists 0%nat. repeat split; auto with arith.
    intros k' t' Hk. lia.
  - apply IH in H. destruct H as (k & -> & Hn & Ht & Hprev).
    exists (S k). split; [lia|]. split; [exact Hn|]. split; [exact Ht|].
    intros [|k'] t' Hk Hn'; simpl in Hn'.
    + inversion Hn'; subst; exact E.
    + apply (Hprev k'); [lia | exact Hn'].
Qed.

Lemma buscar_desde_None (l : list Tramo) (x : Q) :
  forall i, buscar_desde i l x = None <->
            forall t, In t l -> en_tramo t x = false.
Proof.
  induction l as [|t0 resto IH]; intros i; simpl.
  - split; [intros _ t [] | reflexivity].
  - destruct (en_tramo t0 x) eqn:E.
    + split; [discriminate|]. intros H. rewrite (H t0) in E; auto. discriminate.
    + rewrite IH. split.
      * intros H t [<-|Hin]; auto.
      * intros H t Hin. apply H. now right.
Qed.

(** [buscar_tramo] always returns, and what it returns is an entry of the
    scale at the index it reports. *)
Lemma buscar_tramo_total (x : Q) :
  exists idx t, buscar_tramo x = Ok (idx, t) /\ nth_error ESCALA idx = Some t.
Proof.
  unfold buscar_tramo. destruct (buscar_desde 0 ESCALA x) as [[j t]|] eqn:E.
  - apply buscar_desde_Some in E. destruct E as (k & -> & Hn & _).
    exists k, t. split; [reflexivity | exact Hn].
  - eexists _, _. split; reflexivity.
Qed.

(** What [buscar_tramo] returns is either a bracket that contains the
    total, or the fallback when no bracket does. *)
Lemma buscar_tramo_inv (x : Q) idx t :
  buscar_tramo x = Ok (idx, t) ->
  nth_error ESCALA idx = Some t /\
  (en_tramo t x = true \/
   idx = 0%nat /\ forall t', In t' ESCALA -> en_tramo t' x = false).
Proof.
  unfold buscar_tramo. destruct (buscar_desde 0 ESCALA x) as [[j t']|] eqn:E.
  - intros H. inversion H; subst j t'.
    apply buscar_desde_Some in E. destruct E as (k & -> & Hn & Ht & _).
    split; [exact Hn | left; exact Ht].
  - intros H. cbn in H. inversion H; subst idx t.
    split; [reflexivity|]. right. split; [reflexivity|].
    now apply (buscar_desde_None ESCALA x 0%nat).
Qed.

Lemma tramo_previo_total (idx : nat) (t : Tramo) :
  nth_error ESCALA idx = Some t ->
  exists prev_max_uma pct_prev, tramo_previo idx = Ok (prev_max_uma, pct_prev).
Proof.
  intros H. do 7 (destruct idx as [|idx]; [eexists _, _; reflexivity|]).
  destruct idx; discriminate.
Qed.

(** The result of [calcular_uma_p1p2], once the bracket and the previous
    bracket are known. *)
Lemma calcular_uma_p1p2_eq (x : Q) (a b c : bool) idx t pm pp :
  buscar_tramo x = Ok (idx, t) ->
  tramo_previo idx = Ok (pm, pp) ->
  calcular_uma_p1p2 x a b c =
    Ok (py_min x pm * (pp * multiplicador a b c)
          + py_max 0 (x - py_min x pm) * (pct_min t * multiplicador a b c),
        mkDet t (py_min x pm) (py_max 0 (x - py_min x pm)) pp (pct_min t)
              (pp * multiplicador a b c) (pct_min t * multiplicador a b c)
              (py_min x pm * (pp * multiplicador a b c))
              (py_max 0 (x - py_min x pm) * (pct_min t * multiplicador a b c))).
Proof.
  intros H1 H2. unfold calcular_uma_p1p2. rewrite H1. simpl. rewrite H2.
  reflexivity.
Qed.

(** [calcular_uma_p1p2] returns on every input. *)
Lemma calcular_uma_p1p2_total (x : Q) (a b c : bool) :
  exists total d, calcular_uma_p1p2 x a b c = Ok (total, d).
Proof.
  destruct (buscar_tramo_total x) as (idx & t & H1 & Hn).
  destruct (tramo_previo_total idx t Hn) as (pm & pp & H2).
  rewrite (calcular_uma_p1p2_eq x a b c idx t pm pp H1 H2).
  eexists _, _. reflexivity.
Qed.

Lemma multiplicador_pos (a b c : bool) : 0 < multiplicador a b c.
Proof. destruct a, b, c; reflexivity. Qed.

(** ** The gaps of the scale *)

Ltac fuera_de_tramo :=
  unfold en_tramo; cbn [max_uma min_uma]; decide_cmp; reflexivity.

Lemma hueco_sin_tramo (x : Q) :
  en_hueco x -> forall t, In t ESCALA -> en_tramo t x = false.
Proof.
  intros Hx t Hin. unfold ESCALA in Hin. cbn [In] in Hin.
  unfold en_hueco in Hx.
  repeat (destruct Hin as [<-|Hin]); try contradiction;
    repeat (destruct Hx as [Hx|Hx]); fuera_de_tramo.
Qed.

Lemma sin_tramo_fallback (x : Q) :
  (forall t, In t ESCALA -> en_tramo t x = false) ->
  buscar_tramo x = Ok (0%nat, mkTramo 0 (Some 15) 0.22 0.33).
Proof.
  intros H. unfold buscar_tramo.
  rewrite (proj2 (buscar_desde_None ESCALA x 0%nat) H). reflexivity.
Qed.

Lemma hueco_pos (x : Q) : en_hueco x -> 0 < x.
Proof. unfold en_hueco. intros H. repeat (destruct H as [H|H]); lra. Qed.

(** What does hold of the scale: it is ascending (each bracket is a
    non-empty range that starts above the top of the bracket before it) and
    only its last bracket has no top. *)
Lemma ESCALA_ascendente (i : nat) (t t' : Tramo) :
  nth_error ESCALA i = Some t -> nth_error ESCALA (S i) = Some t' ->
  exists m, max_uma t = Some m /\ min_uma t <= m /\ m < min_uma t'.
Proof.
  intros H H'.
  do 6 (destruct i as [|i];
        [ inversion H; inversion H'; subst; eexists;
          split; [reflexivity|]; split; [discriminate | reflexivity] |]).
  destruct i as [|[|i]]; discriminate.
Qed.

Lemma ESCALA_sin_tope (i : nat) (t : Tramo) :
  nth_error ESCALA i = Some t -> (max_uma t = None <-> i = 6%nat).
Proof.
  intros H.
  do 7 (destruct i as [|i];
        [ inversion H; subst; split; intros E; first [discriminate | reflexivity]
        |]).
  destruct i; discriminate.
Qed.

Lemma en_tramo_rango (t : Tramo) (x : Q) :
  en_tramo t x = true ->
  min_uma t <= x /\ forall m, max_uma t = Some m -> x <= m.
Proof.
  unfold en_tramo. destruct (max_uma t) as [mx|]; intros H.
  - apply andb_true_iff in H. destruct H as [H1 H2].
    apply Qle_bool_iff in H1, H2. split; [exact H1|].
    intros m Hm. inversion Hm; subst. exact H2.
  - apply Qle_bool_iff in H. split; [exact H | discriminate].
Qed.

(** No total is in two brackets. *)
Lemma en_tramo_unico (x : Q) (t t' : Tramo) :
  In t ESCALA -> In t' ESCALA ->
  en_tramo t x = true -> en_tramo t' x = true -> t = t'.
Proof.
  intros Hin Hin' H H'.
  apply en_tramo_rango in H, H'. destruct H as [Hlo Hhi], H' as [Hlo' Hhi'].
  unfold ESCALA in Hin, Hin'. cbn [In] in Hin, Hin'.
  repeat (destruct Hin as [<-|Hin]); try contradiction;
    repeat (destruct Hin' as [<-|Hin']); try contradiction;
    try reflexivity; exfalso; cbn [min_uma max_uma] in *;
    try (specialize (Hhi _ eq_refl)); try (specialize (Hhi' _ eq_refl)); lra.
Qed.

(** When a bracket contains the total, [buscar_tramo] returns it. *)
Lemma buscar_tramo_en_tramo (x : Q) (t : Tramo) :
  In t ESCALA -> en_tramo t x = true ->
  exists idx, buscar_tramo x = Ok (idx, t) /\ nth_error ESCALA idx = Some t.
Proof.
  intros Hin Ht.
  destruct (buscar_tramo_total x) as (idx & t0 & Hb & Hn).
  destruct (buscar_tramo_inv x idx t0 Hb) as (_ & [Ht0 | [_ Hno]]).
  - assert (t0 = t)
      by (apply (en_tramo_unico x); eauto using nth_error_In).
    subst t0. exists idx. split; assumption.
  - rewrite (Hno t Hin) in Ht. discriminate.
Qed.

(** Every whole, non-negative number of UMA is in a bracket: the gaps of
    the scale hold fractional totals only. *)
Lemma entero_en_tramo (n : Z) :
  (0 <= n)%Z -> exists t, In t ESCALA /\ en_tramo t (inject_Z n) = true.
Proof.
  intros Hn.
  assert (Hc : (n <= 15 \/ 16 <= n <= 45 \/ 46 <= n <= 90 \/ 91 <= n <= 150 \/
                151 <= n <= 450 \/ 451 <= n <= 750 \/ 751 <= n)%Z) by lia.
  destruct Hc as [H|[H|[H|[H|[H|[H|H]]]]]];
    [ exists (mkTramo 0 (Some 15) 0.22 0.33)
    | exists (mkTramo 16 (Some 45) 0.20 0.26)
    | exists (mkTramo 46 (Some 90) 0.18 0.24)
    | exists (mkTramo 91 (Some 150) 0.17 0.22)
    | exists (mkTramo 151 (Some 450) 0.15 0.20)
    | exists (mkTramo 451 (Some 750) 0.13 0.17)
    | exists (mkTramo 751 None 0.12 0.15) ];
    (split; [cbn; tauto|]);
    unfold en_tramo; cbn [max_uma min_uma];
    try (apply andb_true_iff; split);
    apply Qle_bool_iff; unfold Qle; cbn; lia.
Qed.

(** C1, the code at a total of the gap between 15 and 16: 15.5 is a
    non-negative total, no bracket of the scale contains it, and
    [buscar_tramo] answers with its fallback, the first bracket, whose range
    [0, 15] does not contain 15.5.  The form with capital 31, no interest,
    equal index readings and a UMA value of 2 reaches this total.  The same
    happens in the gap between 45 and 46, where the fee of 45.5 UMA (10.01)
    is below the fee of 45 UMA (10.95). *)
Theorem buscar_tramo_15_5_sin_tramo :
  0 <= 15.5 /\
  (forall t, In t ESCALA -> en_tramo t 15.5 = false) /\
  buscar_tramo 15.5 = Ok (0%nat, mkTramo 0 (Some 15) 0.22 0.33) /\
  en_tramo (mkTramo 0 (Some 15) 0.22 0.33) 15.5 = false /\
  (exists s,
     calcular_try (mkFormulario (Ok 31) (Ok 0) (mkDate 2024 1 31)
                     (mkDate 2024 6 30) (Ok 50) (Ok 50) (Ok 2)
                     false false false None) = Ok s /\
     uma_total s == 15.5 /\
     tramo_actual (det s) = mkTramo 0 (Some 15) 0.22 0.33) /\
  (exists h45 d45 h455 d455,
     calcular_uma_p1p2 45 false false false = Ok (h45, d45) /\
     calcular_uma_p1p2 45.5 false false false = Ok (h455, d455) /\
     h45 == 10.95 /\ h455 == 10.01 /\ h455 < h45).
Proof.
  assert (H : en_hueco 15.5) by (left; split; reflexivity).
  split; [discriminate|].
  split; [exact (hueco_sin_tramo _ H)|].
  split; [exact (sin_tramo_fallback _ (hueco_sin_tramo _ H))|].
  split; [reflexivity|].
  split.
  - eexists. split; [vm_compute; reflexivity|]. split; reflexivity.
  - eexists _, _, _, _. split; [vm_compute; reflexivity|].
    split; [vm_compute; reflexivity|]. repeat split.
Qed.

(** C2: a total strictly inside one of the six gaps of the scale is in no
    bracket, so [buscar_tramo] returns its fallback (index 0, the first
    bracket); [calcular_uma_p1p2] then takes 0 as the previous maximum and as
    the previous rate, and prices the whole total as P2 at the minimum rate of
    the first bracket, 0.22, times the multiplier. *)
Theorem calcular_uma_p1p2_en_hueco (x : Q) (a b c : bool) :
  en_hueco x ->
  (forall t, In t ESCALA -> en_tramo t x = false) /\
  buscar_tramo x = Ok (0%nat, mkTramo 0 (Some 15) 0.22 0.33) /\
  tramo_previo 0 = Ok (0, 0) /\
  exists total d,
    calcular_uma_p1p2 x a b c = Ok (total, d) /\
    tramo_actual d = mkTramo 0 (Some 15) 0.22 0.33 /\
    pct_prev_max d = 0 /\
    p1_uma d == 0 /\
    p2_uma d == x /\
    pct_p2_eff d == 0.22 * multiplicador a b c /\
    total == x * (0.22 * multiplicador a b c).
Proof.
  intros Hx. pose proof (hueco_pos x Hx) as Hpos.
  pose proof (hueco_sin_tramo x Hx) as Hno.
  pose proof (sin_tramo_fallback x Hno) as Hb.
  split; [exact Hno|]. split; [exact Hb|]. split; [reflexivity|].
  eexists _, _. split.
  - apply (calcular_uma_p1p2_eq x a b c 0 _ 0 0 Hb). reflexivity.
  - cbn [tramo_actual pct_prev_max p1_uma p2_uma pct_p2_eff pct_min].
    assert (E1 : py_min x 0 = 0) by (unfold py_min; decide_cmp; reflexivity).
    rewrite E1.
    assert (E2 : py_max 0 (x - 0) = x - 0)
      by (unfold py_max; decide_cmp; reflexivity).
    rewrite E2.
    split; [reflexivity|]. split; [reflexivity|]. split; [reflexivity|].
    split; [ring|]. split; [reflexivity|]. ring.
Qed.

Lemma calcular_uma_p1p2_en_hueco_witness :
  en_hueco 15.5 /\
  exists total d,
    calcular_uma_p1p2 15.5 true true true = Ok (total, d) /\
    total == 15.5 * (0.22 * multiplicador true true true).
Proof.
  assert (H : en_hueco 15.5) by (left; split; reflexivity).
  split; [exact H|].
  destruct (calcular_uma_p1p2_en_hueco 15.5 true true true H)
    as (_ & _ & _ & total & d & Hc & _ & _ & _ & _ & _ & Ht).
  exists total, d. split; [exact Hc | exact Ht].
Defined.

(** ** The update of the base (P 14.290) and the conversion to UMA *)

Lemma py_div_Ok (a b : Q) : ~ b == 0 -> py_div a b = Ok (a / b).
Proof.
  intros H. unfold py_div. destruct (Qeq_bool b 0) eqn:E; [|reflexivity].
  apply Qeq_bool_eq in E. contradiction.
Qed.

Lemma py_div_Raise (a b : Q) : b == 0 -> py_div a b = Raise ZeroDivisionError.
Proof. intros H. unfold py_div. now rewrite (Qeq_eq_bool _ _ H). Qed.

(** On a form that parses, with the cut-off date before the calculation
    date, an index reading at the start other than -100 and a positive UMA
    value, [calcular_try] returns the result below. *)
Lemma calcular_try_Ok cap int corte fcalc to tm uma a b c uma_pago :
  date_geb corte fcalc = false -> ~ 100 + to == 0 -> 0 < uma ->
  let fac := (100 + tm) / (100 + to) - 1 in
  let base := cap + int + cap * fac in
  exists h d,
    calcular_uma_p1p2 (base / uma) a b c = Ok (h, d) /\
    calcular_try (formulario_de cap int corte fcalc to tm uma a b c uma_pago) =
      Ok (mkSalida cap int to tm fac (cap * fac) base uma (base / uma) d h
            (match uma_pago with
             | Some v => if Qlt_bool 0 v then Some (h * v) else None
             | None => None
             end)).
Proof.
  intros Hd Ht Hu fac base.
  destruct (calcular_uma_p1p2_total (base / uma) a b c) as (h & d & Hc).
  exists h, d. split; [exact Hc|].
  unfold calcular_try, formulario_de.
  cbn [bind edt_cap_planilla edt_int_planilla dt_corte dt_calculo edt_to
       edt_tm edt_uma_calc chk_apoderado chk_mitad41 chk_sin_exc edt_uma_pago].
  rewrite Hd. cbn [bind]. rewrite (py_div_Ok _ _ Ht). cbn [bind].
  rewrite (Qle_bool_false uma 0 Hu). cbn [bind].
  rewrite py_div_Ok by lra. cbn [bind].
  fold fac. fold base. rewrite Hc. cbn [bind].
  destruct uma_pago as [v|]; reflexivity.
Qed.

(** C3: on valid inputs [calcular] computes
    factor = (100 + t_m) / (100 + t_o) - 1 and the additional interest
    capital * factor, which has the sign of the factor (for a positive
    capital) and can be negative; only the capital is adjusted, the interest
    of the form enters the base unadjusted:
    base = capital + interest + capital * factor. *)
Theorem calcular_try_actualizacion
    cap int corte fcalc to tm uma a b c uma_pago :
  date_geb corte fcalc = false -> ~ 100 + to == 0 -> 0 < uma ->
  exists s,
    calcular_try (formulario_de cap int corte fcalc to tm uma a b c uma_pago)
      = Ok s /\
    factor s == (100 + tm) / (100 + to) - 1 /\
    interes_adic s == cap * factor s /\
    base_reg s == cap + int + cap * factor s /\
    (0 < cap -> (0 < factor s <-> 0 < interes_adic s) /\
                (factor s < 0 <-> interes_adic s < 0) /\
                (factor s == 0 <-> interes_adic s == 0)) /\
    (forall int' s',
       calcular_try
         (formulario_de cap int' corte fcalc to tm uma a b c uma_pago) = Ok s' ->
       interes_adic s' == interes_adic s /\
       base_reg s' - base_reg s == int' - int).
Proof.
  intros Hd Ht Hu.
  destruct (calcular_try_Ok cap int corte fcalc to tm uma a b c uma_pago
              Hd Ht Hu) as (h & d & _ & Hs).
  eexists. split; [exact Hs|].
  cbn [factor interes_adic base_reg].
  split; [reflexivity|]. split; [reflexivity|]. split; [reflexivity|].
  split.
  - intros Hcap. set (fac := (100 + tm) / (100 + to) - 1).
    repeat split; intros H; nra.
  - intros int' s' Hs'.
    destruct (calcular_try_Ok cap int' corte fcalc to tm uma a b c uma_pago
                Hd Ht Hu) as (h' & d' & _ & Hs'').
    rewrite Hs'' in Hs'. inversion Hs'; subst s'.
    cbn [interes_adic base_reg]. split; [reflexivity | ring].
Qed.

(** The update of the example of the source's placeholders with the index
    readings exchanged: the index fell and the additional interest is
    negative. *)
Lemma calcular_try_actualizacion_witness :
  date_geb (mkDate 2024 1 31) (mkDate 2024 6 30) = false /\
  ~ 100 + 74.80 == 0 /\ 0 < 20567.79 /\
  exists s,
    calcular_try (formulario_de 15000000 5000000 (mkDate 2024 1 31)
                    (mkDate 2024 6 30) 74.80 62.15 20567.79
                    true true true None) = Ok s /\
    interes_adic s == 15000000 * factor s /\
    base_reg s == 15000000 + 5000000 + 15000000 * factor s /\
    interes_adic s < 0.
Proof.
  destruct (calcular_try_actualizacion 15000000 5000000 (mkDate 2024 1 31)
              (mkDate 2024 6 30) 74.80 62.15 20567.79 true true true None)
    as (s & Hs & Hf & Ha & Hb & Hsign & _).
  - reflexivity.
  - discriminate.
  - reflexivity.
  - split; [reflexivity|]. split; [discriminate|]. split; [reflexivity|].
    exists s. split; [exact Hs|]. split; [exact Ha|]. split; [exact Hb|].
    apply Hsign; [reflexivity|]. rewrite Hf. reflexivity.
Defined.

(** ** The split P1/P2 and the rates *)

Lemma py_min_py_max_split (x pm : Q) :
  py_min x pm + py_max 0 (x - py_min x pm) == x.
Proof.
  unfold py_min. destruct (Qlt_bool pm x) eqn:E.
  - apply Qlt_bool_iff in E. unfold py_max. decide_cmp. ring.
  - assert (H : Qlt_bool 0 (x - x) = false) by (apply Qlt_bool_false; lra).
    unfold py_max. rewrite H. ring.
Qed.


(** The entries of the scale, by index. *)
Lemma ESCALA_inv (idx : nat) (t : Tramo) :
  nth_error ESCALA idx = Some t ->
  0 < pct_min t /\ pct_min t < pct_max t /\
  (idx <> 0%nat ->
   exists prior m, nth_error ESCALA (idx - 1) = Some prior /\
                   max_uma prior = Some m /\ m < min_uma t /\
                   tramo_previo idx = Ok (m, pct_max prior)).
Proof.
  intros H.
  do 7 (destruct idx as [|idx];
        [ inversion H; subst t; split; [reflexivity|]; split; [reflexivity|];
          intros Hi; try congruence;
          eexists _, _; repeat split; reflexivity |]).
  destruct idx; discriminate.
Qed.

(** C5: when the bracket found has index 0 the previous maximum and the
    previous rate are 0; otherwise they are the (finite) maximum and the
    maximum rate of the bracket before it; and the base rate of P2 is the
    minimum rate of the bracket found, which is below its maximum rate and
    is the same wherever in the bracket the total lies. *)
Theorem seleccion_de_tasas (x : Q) (a b c : bool) :
  exists idx t prev_max_uma pct_prev total d,
    buscar_tramo x = Ok (idx, t) /\
    tramo_previo idx = Ok (prev_max_uma, pct_prev) /\
    calcular_uma_p1p2 x a b c = Ok (total, d) /\
    (idx = 0%nat -> prev_max_uma = 0 /\ pct_prev = 0) /\
    (idx <> 0%nat ->
     exists prior, nth_error ESCALA (idx - 1) = Some prior /\
                   max_uma prior = Some prev_max_uma /\
                   pct_prev = pct_max prior) /\
    tramo_actual d = t /\
    p1_uma d = py_min x prev_max_uma /\
    pct_prev_max d = pct_prev /\
    pct_p1_eff d = pct_prev * multiplicador a b c /\
    pct_act_base_min d = pct_min t /\
    pct_act_base_min d < pct_max t /\
    pct_p2_eff d = pct_min t * multiplicador a b c /\
    res_b_uma d = p2_uma d * (pct_min t * multiplicador a b c) /\
    (forall x' total' d',
       buscar_tramo x' = Ok (idx, t) ->
       calcular_uma_p1p2 x' a b c = Ok (total', d') ->
       pct_act_base_min d' = pct_act_base_min d).
Proof.
  destruct (buscar_tramo_total x) as (idx & t & H1 & Hn).
  destruct (tramo_previo_total idx t Hn) as (pm & pp & H2).
  destruct (ESCALA_inv idx t Hn) as (_ & Hlt & Hprev).
  eexists idx, t, pm, pp, _, _.
  split; [exact H1|]. split; [exact H2|].
  split; [exact (calcular_uma_p1p2_eq x a b c idx t pm pp H1 H2)|].
  cbn [tramo_actual p1_uma p2_uma pct_prev_max pct_p1_eff pct_act_base_min
       pct_p2_eff res_b_uma].
  split.
  { intros ->. cbn in H2. inversion H2. split; reflexivity. }
  split.
  { intros Hi. destruct (Hprev Hi) as (prior & m & Hp & Hm & _ & Htp).
    rewrite Htp in H2. inversion H2; subst.
    exists prior. repeat split; assumption. }
  do 5 (split; [reflexivity|]). split; [exact Hlt|].
  do 2 (split; [reflexivity|]).
  intros x' total' d' Hb' Hc'.
  rewrite (calcular_uma_p1p2_eq x' a b c idx t pm pp Hb' H2) in Hc'.
  inversion Hc'. reflexivity.
Qed.

Lemma seleccion_de_tasas_witness :
  exists total d,
    calcular_uma_p1p2 16 true true true = Ok (total, d) /\
    tramo_actual d = mkTramo 16 (Some 45) 0.20 0.26 /\
    p1_uma d = py_min 16 15 /\
    pct_prev_max d = 0.33 /\
    pct_act_base_min d = 0.20.
Proof.
  destruct (seleccion_de_tasas 16 true true true)
    as (idx & t & pm & pp & total & d & Hb & Hp & Hc & _ & Hprev
        & Ht & H1 & Hpp & _ & Hmin & _).
  vm_compute in Hb. injection Hb as <- <-.
  destruct Hprev as (prior & Hn & Hm & Hq); [discriminate|].
  cbn in Hn. injection Hn as <-.
  cbn in Hm. injection Hm as <-. cbn in Hq. rewrite Hq in Hpp.
  exists total, d. split; [exact Hc|]. split; [exact Ht|].
  split; [exact H1|]. split; [exact Hpp | exact Hmin].
Defined.

(** ** The multiplier *)

Lemma fold_aplicar_ajuste (a b c : bool) (orden : list ajuste) :
  forall m,
    fold_left (aplicar_ajuste a b c) orden m ==
    m * fold_right (fun j acc => factor_de a b c j * acc) 1 orden.
Proof.
  induction orden as [|j orden IH]; intros m; simpl.
  - ring.
  - rewrite IH. unfold aplicar_ajuste, factor_de.
    destruct (habilitado a b c j); ring.
Qed.

Lemma producto_permutacion (a b c : bool) (l l' : list ajuste) :
  Permutation l l' ->
  fold_right (fun j acc => factor_de a b c j * acc) 1 l ==
  fold_right (fun j acc => factor_de a b c j * acc) 1 l'.
Proof.
  induction 1 as [| j l l' _ IH | j k l | l l' l'' _ IH1 _ IH2]; simpl.
  - reflexivity.
  - rewrite IH. reflexivity.
  - ring.
  - rewrite IH1. exact IH2.
Qed.

(** C6: the multiplier is (1.4 if apoderado) * (0.5 if half art. 41) *
    (0.9 if no exceptions); it is the multiplier obtained by applying the
    three adjustments in the order of the source, and applying them in any
    other order gives the same value; both effective rates are the base rate
    times this one multiplier. *)
Theorem multiplicador_composicion (a b c : bool) :
  multiplicador a b c ==
    (if a then 1.4 else 1) * (if b then 0.5 else 1) * (if c then 0.9 else 1) /\
  multiplicador a b c =
    multiplicador_en_orden a b c [Apoderado; MitadArt41; Menos10] /\
  (forall orden,
     Permutation [Apoderado; MitadArt41; Menos10] orden ->
     multiplicador_en_orden a b c orden == multiplicador a b c) /\
  (forall x, exists total d,
     calcular_uma_p1p2 x a b c = Ok (total, d) /\
     pct_p1_eff d = pct_prev_max d * multiplicador a b c /\
     pct_p2_eff d = pct_act_base_min d * multiplicador a b c /\
     pct_act_base_min d = pct_min (tramo_actual d)).
Proof.
  split; [destruct a, b, c; reflexivity|].
  split; [reflexivity|].
  split.
  - intros orden Hp.
    change (multiplicador a b c)
      with (multiplicador_en_orden a b c [Apoderado; MitadArt41; Menos10]).
    unfold multiplicador_en_orden. rewrite !fold_aplicar_ajuste.
    rewrite (producto_permutacion a b c _ _ Hp). reflexivity.
  - intros x.
    destruct (buscar_tramo_total x) as (idx & t & H1 & Hn).
    destruct (tramo_previo_total idx t Hn) as (pm & pp & H2).
    eexists _, _.
    split; [exact (calcular_uma_p1p2_eq x a b c idx t pm pp H1 H2)|].
    repeat split.
Qed.

Lemma multiplicador_composicion_witness :
  Permutation [Apoderado; MitadArt41; Menos10]
              [Menos10; Apoderado; MitadArt41] /\
  multiplicador_en_orden true true true [Menos10; Apoderado; MitadArt41]
    == multiplicador true true true /\
  multiplicador true true true == 1.4 * 0.5 * 0.9.
Proof.
  assert (Hp : Permutation [Apoderado; MitadArt41; Menos10]
                           [Menos10; Apoderado; MitadArt41]).
  { apply Permutation_sym.
    apply (Permutation_cons_app [Apoderado; MitadArt41] [] Menos10).
    apply Permutation_refl. }
  destruct (multiplicador_composicion true true true) as (Hm & _ & Ho & _).
  split; [exact Hp|]. split; [exact (Ho _ Hp) | exact Hm].
Defined.

(** ** The worked example *)

Ltac calcula := vm_compute; first [reflexivity | discriminate].

(** C7 as stated fails: on the form of the example the factor is not
    0.07836 to the five decimals given (it is below it by more than 0.0003),
    the additional interest is not 1,175,400 to the hundreds given (it is
    more than 5,000 below), nor is the base 21,175,400, and the total in UMA
    is not 1029.5 to the decimal given (it is more than 0.2 below). *)
Lemma ejemplo_no_es_el_declarado :
  exists s,
    calcular_try (ejemplo (mkDate 2024 1 31) (mkDate 2024 6 30)
                          true true true None) = Ok s /\
    ~ aprox (factor s) 0.07836 0.00001 /\
    ~ aprox (interes_adic s) 1175400 100 /\
    ~ aprox (base_reg s) 21175400 100 /\
    ~ aprox (uma_total s) 1029.5 0.1 /\
    0.0003 < 0.07836 - factor s /\
    5000 < 1175400 - interes_adic s /\
    5000 < 21175400 - base_reg s /\
    0.2 < 1029.5 - uma_total s.
Proof.
  eexists. split; [vm_compute; reflexivity|].
  unfold aprox. repeat split; try (intros H; vm_compute in H; congruence).
Qed.

(** C7 as amended: on the form of the example, for any valid dates, flags
    and payment value, factor = 0.07801 (to five decimals), additional
    interest = 1,170,213 and base = 21,170,213 (to the unit), total =
    1029.29 UMA (to two decimals), in the unbounded bracket (minimum rate
    0.12), with p1 = 750 and previous rate 0.17, the maximum rate of the
    bracket 451-750. *)
Theorem ejemplo_calculo corte fcalc (a b c : bool) (uma_pago : option Q) :
  date_geb corte fcalc = false ->
  exists s,
    calcular_try (ejemplo corte fcalc a b c uma_pago) = Ok s /\
    aprox (factor s) 0.07801 0.00001 /\
    aprox (interes_adic s) 1170213 1 /\
    aprox (base_reg s) 21170213 1 /\
    aprox (uma_total s) 1029.29 0.01 /\
    tramo_actual (det s) = mkTramo 751 None 0.12 0.15 /\
    pct_act_base_min (det s) = 0.12 /\
    p1_uma (det s) = 750 /\
    pct_prev_max (det s) = 0.17 /\
    nth_error ESCALA 5 = Some (mkTramo 451 (Some 750) 0.13 0.17).
Proof.
  intros Hd.
  destruct (calcular_try_Ok 15000000 5000000 corte fcalc 62.15 74.80 20567.79
              a b c uma_pago Hd) as (h & d & Hc & Hs);
    [discriminate | reflexivity |].
  eexists. split; [exact Hs|].
  cbn [factor interes_adic base_reg uma_total det].
  assert (Hb : buscar_tramo
                 ((15000000 + 5000000 +
                   15000000 * ((100 + 74.80) / (100 + 62.15) - 1)) / 20567.79)
               = Ok (6%nat, mkTramo 751 None 0.12 0.15))
    by (vm_compute; reflexivity).
  rewrite (calcular_uma_p1p2_eq _ a b c _ _ 750 0.17 Hb eq_refl) in Hc.
  inversion Hc; subst h d; clear Hc.
  cbn [tramo_actual pct_act_base_min p1_uma pct_prev_max pct_min].
  unfold aprox.
  split; [calcula|]. split; [calcula|]. split; [calcula|].
  split; [calcula|]. split; [reflexivity|]. split; [reflexivity|].
  split; [vm_compute; reflexivity|]. split; reflexivity.
Qed.

Lemma ejemplo_calculo_witness :
  date_geb (mkDate 2024 1 31) (mkDate 2024 6 30) = false /\
  exists s,
    calcular_try (ejemplo (mkDate 2024 1 31) (mkDate 2024 6 30)
                          true true true None) = Ok s /\
    aprox (uma_total s) 1029.29 0.01 /\
    p1_uma (det s) = 750.
Proof.
  split; [reflexivity|].
  destruct (ejemplo_calculo (mkDate 2024 1 31) (mkDate 2024 6 30)
              true true true None eq_refl)
    as (s & Hs & _ & _ & _ & Hu & _ & _ & Hp & _).
  exists s. split; [exact Hs|]. split; [exact Hu | exact Hp].
Defined.

(** ** Monotonicity within a bracket *)

(** The fee of a non-negative total, in closed form: the whole previous
    range at the previous rate plus the excess at the minimum rate. *)
Lemma honorarios_forma_cerrada (x : Q) (a b c : bool) idx t :
  0 <= x -> buscar_tramo x = Ok (idx, t) ->
  exists pm pp h d,
    tramo_previo idx = Ok (pm, pp) /\
    calcular_uma_p1p2 x a b c = Ok (h, d) /\
    0 < pct_p2_eff d /\
    h == pm * (pp * multiplicador a b c)
         + (x - pm) * (pct_min t * multiplicador a b c).
Proof.
  intros Hx Hb. destruct (buscar_tramo_inv x idx t Hb) as (Hn & Hcase).
  destruct (ESCALA_inv idx t Hn) as (Hmin & _ & Hprev).
  pose proof (multiplicador_pos a b c) as Hm.
  assert (Hr : 0 < pct_min t * multiplicador a b c) by nra.
  destruct (Nat.eq_dec idx 0) as [->|Hi].
  - exists 0, 0. eexists _, _. split; [reflexivity|].
    split; [exact (calcular_uma_p1p2_eq x a b c 0 t 0 0 Hb eq_refl)|].
    cbn [pct_p2_eff]. split; [exact Hr|].
    pose proof (py_min_py_max_split x 0) as Hs.
    pose proof (py_min_Qmin x 0) as Hp1.
    rewrite (Q.min_r x 0 Hx) in Hp1.
    set (p1 := py_min x 0) in *. set (p2 := py_max 0 (x - p1)) in *.
    set (r := pct_min t * multiplicador a b c) in *.
    set (m := multiplicador a b c) in *.
    assert (Hp2 : p2 == x) by lra.
    rewrite Hp1, Hp2. ring.
  - destruct (Hprev Hi) as (prior & pm & _ & _ & Hlt & Htp).
    destruct Hcase as [Hin | [Hi0 _]]; [|contradiction].
    apply en_tramo_rango in Hin. destruct Hin as [Hin _].
    exists pm, (pct_max prior). eexists _, _. split; [exact Htp|].
    split; [exact (calcular_uma_p1p2_eq x a b c idx t _ _ Hb Htp)|].
    cbn [pct_p2_eff]. split; [exact Hr|].
    assert (E1 : py_min x pm = pm) by (unfold py_min; decide_cmp; reflexivity).
    rewrite E1.
    assert (E2 : py_max 0 (x - pm) = x - pm)
      by (unfold py_max; decide_cmp; reflexivity).
    rewrite E2. reflexivity.
Qed.



(** ** Validation errors *)

Lemma date_geb_refl (d : date) : date_geb d d = true.
Proof. unfold date_geb. rewrite !Z.eqb_refl. apply Z.leb_refl. Qed.

Lemma calcular_Raise (w : Ventana) (e : excepcion) :
  calcular_try (form w) = Raise e ->
  calcular w = mkVentana (form w) (out w) (dialogos w ++ [str_exc e]).
Proof. intros H. unfold calcular. rewrite H. reflexivity. Qed.

(** C9: when the cut-off date is equal to or later than the calculation
    date, [calcular] raises the date-range error; when the UMA value that
    reaches the conversion to units (valid dates, non-zero divisor of the
    update) is 0 or negative, it raises the unit-value error; and whenever
    either precondition is violated, whatever the other fields hold, an
    exception is raised, the result pane is left as it was and the message of
    the exception is shown. *)
Theorem validacion_de_entradas :
  (forall cap int corte fcalc to tm uma a b c uma_pago,
     date_geb corte fcalc = true ->
     calcular_try (formulario_de cap int corte fcalc to tm uma a b c uma_pago)
       = Raise (ValueError msg_fecha)) /\
  (forall d, date_geb d d = true) /\
  (forall cap int corte fcalc to tm uma a b c uma_pago,
     date_geb corte fcalc = false -> ~ 100 + to == 0 -> uma <= 0 ->
     calcular_try (formulario_de cap int corte fcalc to tm uma a b c uma_pago)
       = Raise (ValueError msg_uma)) /\
  (forall w,
     date_geb (dt_corte (form w)) (dt_calculo (form w)) = true \/
     (exists uma, edt_uma_calc (form w) = Ok uma /\ uma <= 0) ->
     exists e,
       calcular_try (form w) = Raise e /\
       out (calcular w) = out w /\
       dialogos (calcular w) = dialogos w ++ [str_exc e]).
Proof.
  split; [|split; [exact date_geb_refl | split]].
  - intros cap int corte fcalc to tm uma a b c uma_pago Hd.
    unfold calcular_try, formulario_de.
    cbn [bind edt_cap_planilla edt_int_planilla dt_corte dt_calculo].
    rewrite Hd. reflexivity.
  - intros cap int corte fcalc to tm uma a b c uma_pago Hd Ht Hu.
    unfold calcular_try, formulario_de.
    cbn [bind edt_cap_planilla edt_int_planilla dt_corte dt_calculo edt_to
         edt_tm edt_uma_calc].
    rewrite Hd. cbn [bind]. rewrite (py_div_Ok _ _ Ht). cbn [bind].
    rewrite (Qle_bool_true uma 0 Hu). reflexivity.
  - intros w Hv.
    assert (He : exists e, calcular_try (form w) = Raise e).
    { unfold calcular_try.
      destruct (edt_cap_planilla (form w)) as [cap|e]; [|now exists e].
      destruct (edt_int_planilla (form w)) as [int|e]; [|now exists e].
      cbn [bind].
      destruct (date_geb (dt_corte (form w)) (dt_calculo (form w))) eqn:Hd;
        [now eexists|].
      destruct Hv as [Hv | (uma & Hu & Hle)]; [discriminate|].
      cbn [bind].
      destruct (edt_to (form w)) as [to|e]; [|now exists e].
      destruct (edt_tm (form w)) as [tm|e]; [|now exists e].
      cbn [bind].
      destruct (py_div (100 + tm) (100 + to)) as [q|e]; [|now exists e].
      cbn [bind]. rewrite Hu. cbn [bind].
      rewrite (Qle_bool_true uma 0 Hle). now eexists. }
    destruct He as (e & He). exists e. split; [exact He|].
    rewrite (calcular_Raise w e He). split; reflexivity.
Qed.

Lemma validacion_de_entradas_witness :
  date_geb (mkDate 2024 6 30) (mkDate 2024 6 30) = true /\
  calcular_try (formulario_de 15000000 5000000 (mkDate 2024 6 30)
                  (mkDate 2024 6 30) 62.15 74.80 20567.79
                  true true true None) = Raise (ValueError msg_fecha) /\
  (date_geb (mkDate 2024 1 31) (mkDate 2024 6 30) = false /\
   ~ 100 + 62.15 == 0 /\ 0 <= 0) /\
  calcular_try (formulario_de 15000000 5000000 (mkDate 2024 1 31)
                  (mkDate 2024 6 30) 62.15 74.80 0
                  true true true None) = Raise (ValueError msg_uma).
Proof.
  destruct validacion_de_entradas as (Hfecha & _ & Huma & _).
  split; [reflexivity|].
  split; [apply Hfecha; reflexivity|].
  split; [split; [reflexivity | split; discriminate]|].
  apply Huma; [reflexivity | discriminate | discriminate].
Defined.

(** C10: when the index reading at the start is -100 the divisor
    100 + t_o of the update is zero and the division raises
    [ZeroDivisionError]: [calcular] produces no factor and no result, only
    the error dialog. *)
Theorem indice_inicial_menos_100
    cap int corte fcalc to tm uma a b c uma_pago :
  date_geb corte fcalc = false -> to == - (100) ->
  100 + to == 0 /\
  py_div (100 + tm) (100 + to) = Raise ZeroDivisionError /\
  calcular_try (formulario_de cap int corte fcalc to tm uma a b c uma_pago)
    = Raise ZeroDivisionError /\
  forall w,
    form w = formulario_de cap int corte fcalc to tm uma a b c uma_pago ->
    out (calcular w) = out w /\
    dialogos (calcular w) = dialogos w ++ ["float division by zero"%string].
Proof.
  intros Hd Ht.
  assert (H0 : 100 + to == 0) by lra.
  assert (Hc : calcular_try
                 (formulario_de cap int corte fcalc to tm uma a b c uma_pago)
               = Raise ZeroDivisionError).
  { unfold calcular_try, formulario_de.
    cbn [bind edt_cap_planilla edt_int_planilla dt_corte dt_calculo edt_to
         edt_tm].
    rewrite Hd. cbn [bind]. rewrite (py_div_Raise _ _ H0). reflexivity. }
  split; [exact H0|]. split; [exact (py_div_Raise _ _ H0)|].
  split; [exact Hc|].
  intros w Hw. rewrite <- Hw in Hc. rewrite (calcular_Raise w _ Hc).
  split; reflexivity.
Qed.

Lemma indice_inicial_menos_100_witness :
  date_geb (mkDate 2024 1 31) (mkDate 2024 6 30) = false /\
  - (100) == - (100) /\
  calcular_try (formulario_de 15000000 5000000 (mkDate 2024 1 31)
                  (mkDate 2024 6 30) (- (100)) 74.80 20567.79
                  true true true None) = Raise ZeroDivisionError.
Proof.
  split; [reflexivity|]. split; [reflexivity|].
  apply (indice_inicial_menos_100 15000000 5000000 (mkDate 2024 1 31)
           (mkDate 2024 6 30) (- (100)) 74.80 20567.79 true true true None);
    reflexivity.
Defined.

(** * Further properties of the code *)

(** ** Texts: [strip], [replace] and membership *)

Lemma lstrip_espacios (s : texto) :
  lstrip s = [] <-> forallb es_espacio s = true.
Proof.
  induction s as [|c r IH]; simpl; [tauto|].
  destruct (es_espacio c); simpl; [exact IH|]. split; discriminate.
Qed.

Lemma lstrip_app (s b : texto) :
  lstrip (s ++ b) =
  if forallb es_espacio s then lstrip b else lstrip s ++ b.
Proof.
  induction s as [|c r IH]; simpl; [reflexivity|].
  destruct (es_espacio c); simpl; [exact IH | reflexivity].
Qed.

Lemma forallb_rev {A : Type} (f : A -> bool) (l : list A) :
  forallb f (rev l) = forallb f l.
Proof.
  induction l as [|a l IH]; simpl; [reflexivity|].
  rewrite forallb_app, IH. simpl. rewrite andb_true_r. apply andb_comm.
Qed.

Lemma rstrip_app_espacios (s b : texto) :
  forallb es_espacio b = true -> rstrip (s ++ b) = rstrip s.
Proof.
  intros Hb. unfold rstrip. rewrite rev_app_distr, lstrip_app.
  rewrite forallb_rev, Hb. reflexivity.
Qed.

Lemma rstrip_espacios (s : texto) :
  rstrip s = [] <-> forallb es_espacio s = true.
Proof.
  unfold rstrip. rewrite <- (forallb_rev es_espacio s), <- lstrip_espacios.
  split; intros H.
  - apply (f_equal (@rev N)) in H. rewrite rev_involutive in H. exact H.
  - rewrite H. reflexivity.
Qed.

Lemma forallb_lstrip (s : texto) :
  forallb es_espacio (lstrip s) = true -> lstrip s = [].
Proof.
  induction s as [|c r IH]; simpl; [reflexivity|].
  destruct (es_espacio c) eqn:E; [exact IH|].
  simpl. rewrite E. discriminate.
Qed.

Lemma strip_espacios (s : texto) :
  strip s = [] <-> forallb es_espacio s = true.
Proof.
  unfold strip. rewrite rstrip_espacios. split; intros H.
  - apply lstrip_espacios. now apply forallb_lstrip.
  - apply lstrip_espacios in H. rewrite H. reflexivity.
Qed.

Lemma strip_relleno (a s b : texto) :
  forallb es_espacio a = true -> forallb es_espacio b = true ->
  strip (a ++ s ++ b) = strip s.
Proof.
  intros Ha Hb. unfold strip. rewrite lstrip_app, Ha, lstrip_app.
  destruct (forallb es_espacio s) eqn:Hs.
  - apply lstrip_espacios in Hs, Hb. rewrite Hs, Hb. reflexivity.
  - apply rstrip_app_espacios. exact Hb.
Qed.

Lemma replace_uno (old new : N) (s : texto) :
  replace old [new] s = map (fun c => if (c =? old)%N then new else c) s.
Proof.
  induction s as [|c r IH]; simpl; [reflexivity|].
  fold (replace old [new] r). rewrite IH. destruct (c =? old)%N; reflexivity.
Qed.

Lemma replace_sin (old : N) (new s : texto) :
  contiene old s = false -> replace old new s = s.
Proof.
  induction s as [|c r IH]; simpl; [reflexivity|].
  intros H. apply orb_false_iff in H. destruct H as [Hc Hr].
  fold (replace old new r). rewrite (IH Hr).
  rewrite N.eqb_sym, Hc. reflexivity.
Qed.

Lemma contiene_replace (old : N) (new s : texto) :
  contiene old new = false -> contiene old (replace old new s) = false.
Proof.
  intros Hn. induction s as [|c r IH]; simpl; [reflexivity|].
  fold (replace old new r). unfold contiene in *. rewrite existsb_app, IH.
  destruct (c =? old)%N eqn:E; [now rewrite Hn|].
  simpl. rewrite N.eqb_sym, E. reflexivity.
Qed.

Lemma contiene_In (c : N) (s : texto) : contiene c s = true <-> In c s.
Proof.
  unfold contiene. rewrite existsb_exists. split.
  - intros (x & Hin & E). apply N.eqb_eq in E. now subst.
  - intros H. exists c. split; [exact H | apply N.eqb_refl].
Qed.

(** ** parse_float_robusto *)

(** X1: a text that is empty or made of whitespace only raises
    [ValueError("Entrada vacía.")], whatever [float] would do with it. *)
Theorem parse_float_robusto_en_blanco (py_float : texto -> Res Q) (t : texto) :
  forallb es_espacio t = true ->
  parse_float_robusto py_float t = Raise (ValueError msg_vacia).
Proof.
  intros H. unfold parse_float_robusto.
  rewrite (proj2 (strip_espacios t) H). reflexivity.
Qed.

Lemma parse_float_robusto_en_blanco_witness :
  forallb es_espacio [32; 9; 160]%N = true /\
  parse_float_robusto (fun _ => Ok 1) [32; 9; 160]%N
    = Raise (ValueError msg_vacia).
Proof.
  split; [reflexivity|].
  apply parse_float_robusto_en_blanco. reflexivity.
Defined.

(** X2: whitespace around the text does not change the result. *)
Theorem parse_float_robusto_relleno
    (py_float : texto -> Res Q) (a t b : texto) :
  forallb es_espacio a = true -> forallb es_espacio b = true ->
  parse_float_robusto py_float (a ++ t ++ b) = parse_float_robusto py_float t.
Proof.
  intros Ha Hb. unfold parse_float_robusto.
  rewrite (strip_relleno a t b Ha Hb). reflexivity.
Qed.

Lemma parse_float_robusto_relleno_witness :
  forallb es_espacio [32; 32]%N = true /\ forallb es_espacio [10]%N = true /\
  parse_float_robusto (fun s => Ok (inject_Z (Z.of_nat (List.length s))))
                      ([32; 32] ++ [49; 44; 53] ++ [10])%N
  = parse_float_robusto (fun s => Ok (inject_Z (Z.of_nat (List.length s))))
                        [49; 44; 53]%N.
Proof.
  split; [reflexivity|]. split; [reflexivity|].
  apply parse_float_robusto_relleno; reflexivity.
Defined.

Lemma count_replace_coma (s : texto) :
  count_occ N.eq_dec (replace coma [punto] s) punto =
  (count_occ N.eq_dec s coma + count_occ N.eq_dec s punto)%nat.
Proof.
  induction s as [|c r IH]; [reflexivity|].
  change (replace coma [punto] (c :: r))
    with ((if (c =? coma)%N then [punto] else [c]) ++ replace coma [punto] r).
  rewrite count_occ_app, IH. cbn [count_occ].
  destruct (N.eqb_spec c coma) as [->|Hc].
  - cbn. lia.
  - cbn [count_occ app]. destruct (N.eq_dec c coma); [contradiction|].
    destruct (N.eq_dec c punto); lia.
Qed.

Lemma count_replace_punto (s : texto) (c : N) :
  count_occ N.eq_dec (replace punto [] s) c =
  if N.eq_dec c punto then 0%nat else count_occ N.eq_dec s c.
Proof.
  induction s as [|d r IH]; [now destruct (N.eq_dec c punto)|].
  change (replace punto [] (d :: r))
    with ((if (d =? punto)%N then [] else [d]) ++ replace punto [] r).
  rewrite count_occ_app, IH. cbn [count_occ].
  destruct (N.eqb_spec d punto) as [->|Hd]; cbn [count_occ app].
  - destruct (N.eq_dec c punto) as [->|Hc]; [reflexivity|].
    destruct (N.eq_dec punto c); [congruence | reflexivity].
  - destruct (N.eq_dec c punto) as [->|Hc].
    + destruct (N.eq_dec d punto); [contradiction | reflexivity].
    + destruct (N.eq_dec d c); reflexivity.
Qed.

Lemma count_sin (c : N) (s : texto) :
  contiene c s = false -> count_occ N.eq_dec s c = 0%nat.
Proof.
  intros H. apply count_occ_not_In. intros Hin.
  apply contiene_In in Hin. congruence.
Qed.

Lemma sin_separadores_replace_coma (s : texto) :
  sin_separadores (replace coma [punto] s) = sin_separadores s.
Proof.
  unfold sin_separadores. induction s as [|c r IH]; [reflexivity|].
  change (replace coma [punto] (c :: r))
    with ((if (c =? coma)%N then [punto] else [c]) ++ replace coma [punto] r).
  rewrite filter_app, IH.
  destruct (c =? coma)%N eqn:E;
    [apply N.eqb_eq in E; subst c; reflexivity|].
  cbn [filter app]. destruct (negb (es_separador c)); reflexivity.
Qed.

Lemma sin_separadores_replace_punto (s : texto) :
  sin_separadores (replace punto [] s) = sin_separadores s.
Proof.
  unfold sin_separadores. induction s as [|c r IH]; [reflexivity|].
  change (replace punto [] (c :: r))
    with ((if (c =? punto)%N then [] else [c]) ++ replace punto [] r).
  rewrite filter_app, IH.
  destruct (c =? punto)%N eqn:E;
    [apply N.eqb_eq in E; subst c; reflexivity|].
  cbn [filter app]. destruct (negb (es_separador c)); reflexivity.
Qed.

(** X3: the text that [parse_float_robusto] hands to [float] never holds a
    comma.  When the input has a comma, it holds exactly one dot per comma
    of the input (the dots of the input are dropped); otherwise it holds the
    dots of the input.  The characters other than separators are untouched,
    and normalising the text again changes nothing. *)
Theorem normalizar_separadores_resultado (s : texto) :
  contiene coma (normalizar_separadores s) = false /\
  count_occ N.eq_dec (normalizar_separadores s) punto =
    (if contiene coma s then count_occ N.eq_dec s coma
     else count_occ N.eq_dec s punto) /\
  sin_separadores (normalizar_separadores s) = sin_separadores s /\
  normalizar_separadores (normalizar_separadores s) = normalizar_separadores s.
Proof.
  assert (Hno : contiene coma (normalizar_separadores s) = false).
  { unfold normalizar_separadores.
    destruct (contiene coma s && contiene punto s);
      apply contiene_replace; reflexivity. }
  split; [exact Hno|]. split; [|split].
  - unfold normalizar_separadores.
    destruct (contiene coma s) eqn:Hc; cbn [andb].
    + destruct (contiene punto s) eqn:Hp.
      * rewrite count_replace_coma, !count_replace_punto. cbn. lia.
      * rewrite count_replace_coma, (count_sin punto s Hp). lia.
    + rewrite (replace_sin coma [punto] s Hc). reflexivity.
  - unfold normalizar_separadores.
    destruct (contiene coma s && contiene punto s).
    + rewrite sin_separadores_replace_coma. apply sin_separadores_replace_punto.
    + apply sin_separadores_replace_coma.
  - unfold normalizar_separadores at 1. rewrite Hno. cbn [andb].
    apply replace_sin. exact Hno.
Qed.

(** ** fmt_num *)

Lemma intercambiar_separadores_map (s : texto) :
  contiene equis s = false ->
  intercambiar_separadores s = map intercambiar s.
Proof.
  intros H. unfold intercambiar_separadores. rewrite !replace_uno, !map_map.
  apply map_ext_in. intros c Hin. unfold intercambiar.
  assert (Hc : (c =? equis)%N = false).
  { destruct (c =? equis)%N eqn:E; [|reflexivity].
    apply N.eqb_eq in E. subst c. apply contiene_In in Hin. congruence. }
  destruct (c =? coma)%N eqn:E1; [reflexivity|].
  destruct (c =? punto)%N eqn:E2; [reflexivity|]. now rewrite Hc.
Qed.

Lemma contiene_map_intercambiar (s : texto) :
  contiene equis (map intercambiar s) = contiene equis s /\
  contiene coma (map intercambiar s) = contiene punto s /\
  contiene punto (map intercambiar s) = contiene coma s.
Proof.
  unfold contiene. induction s as [|c r (IH1 & IH2 & IH3)]; [now cbn|].
  cbn [map existsb]. rewrite IH1, IH2, IH3. unfold intercambiar.
  destruct (N.eqb_spec c coma) as [->|H1]; [now cbn|].
  destruct (N.eqb_spec c punto) as [->|H2]; [now cbn|].
  assert (E1 : (coma =? c)%N = false) by (apply N.eqb_neq; congruence).
  assert (E2 : (punto =? c)%N = false) by (apply N.eqb_neq; congruence).
  rewrite E1, E2. repeat split.
Qed.

Lemma intercambiar_involutiva (c : N) : intercambiar (intercambiar c) = c.
Proof.
  unfold intercambiar.
  destruct (N.eqb_spec c coma) as [->|H1]; [reflexivity|].
  destruct (N.eqb_spec c punto) as [->|H2]; [reflexivity|].
  apply N.eqb_neq in H1, H2. now rewrite H1, H2.
Qed.

(** X4: provided the formatted text holds no "X" (the placeholder of the
    three [replace]), [fmt_num] is that text with every comma turned into a
    dot and every dot into a comma, nothing else changed; the result holds
    no "X" either, and exchanging its separators again gives the formatted
    text back. *)
Theorem fmt_num_intercambia (formato : Q -> nat -> texto) (x : Q) (nd : nat) :
  contiene equis (formato x nd) = false ->
  fmt_num formato x nd = map intercambiar (formato x nd) /\
  List.length (fmt_num formato x nd) = List.length (formato x nd) /\
  contiene equis (fmt_num formato x nd) = false /\
  intercambiar_separadores (fmt_num formato x nd) = formato x nd.
Proof.
  intros H. unfold fmt_num.
  rewrite (intercambiar_separadores_map _ H).
  destruct (contiene_map_intercambiar (formato x nd)) as (Hx & _ & _).
  rewrite H in Hx.
  split; [reflexivity|]. split; [apply length_map|]. split; [exact Hx|].
  rewrite (intercambiar_separadores_map _ Hx), map_map.
  rewrite (map_ext _ (fun c => c) intercambiar_involutiva). apply map_id.
Qed.

Lemma fmt_num_intercambia_witness :
  contiene equis [49; 44; 50; 51; 52; 46; 53; 48]%N = false /\
  fmt_num (fun _ _ => [49; 44; 50; 51; 52; 46; 53; 48]%N) 1234.5 2
    = [49; 46; 50; 51; 52; 44; 53; 48]%N.
Proof.
  split; [reflexivity|].
  destruct (fmt_num_intercambia
              (fun _ _ => [49; 44; 50; 51; 52; 46; 53; 48]%N) 1234.5 2
              eq_refl) as (H & _).
  rewrite H. reflexivity.
Defined.

Lemma existsb_rev {A : Type} (f : A -> bool) (l : list A) :
  existsb f (rev l) = existsb f l.
Proof.
  induction l as [|a l IH]; simpl; [reflexivity|].
  rewrite existsb_app, IH. simpl. rewrite orb_false_r. apply orb_comm.
Qed.

Lemma strip_sin_espacios (s : texto) :
  existsb es_espacio s = false -> strip s = s.
Proof.
  assert (Hl : forall u, existsb es_espacio u = false -> lstrip u = u).
  { intros [|c r] Hu; [reflexivity|]. simpl in *.
    apply orb_false_iff in Hu. destruct Hu as [Hc _]. now rewrite Hc. }
  intros H. unfold strip, rstrip. rewrite (Hl s H).
  rewrite Hl by (rewrite existsb_rev; exact H). apply rev_involutive.
Qed.

Lemma existsb_espacio_intercambiar (s : texto) :
  existsb es_espacio (map intercambiar s) = existsb es_espacio s.
Proof.
  induction s as [|c r IH]; [reflexivity|]. cbn [map existsb]. rewrite IH.
  f_equal. unfold intercambiar.
  destruct (N.eqb_spec c coma) as [->|H1]; [reflexivity|].
  destruct (N.eqb_spec c punto) as [->|H2]; reflexivity.
Qed.

Lemma normalizar_tras_intercambiar (s : texto) :
  contiene equis s = false -> contiene punto s = true ->
  normalizar_separadores (map intercambiar s) = replace coma [] s.
Proof.
  intros Hx Hp.
  destruct (contiene_map_intercambiar s) as (_ & Hc' & Hp').
  unfold normalizar_separadores. rewrite Hc', Hp', Hp. cbn [andb].
  destruct (contiene coma s) eqn:Hc.
  - clear Hc' Hp' Hp Hc. induction s as [|c r IH]; [reflexivity|].
    cbn in Hx. apply orb_false_iff in Hx. destruct Hx as [_ Hxr].
    specialize (IH Hxr). cbn [map].
    change (replace punto [] (intercambiar c :: map intercambiar r))
      with ((if (intercambiar c =? punto)%N then [] else [intercambiar c])
            ++ replace punto [] (map intercambiar r)).
    unfold replace at 1. rewrite flat_map_app.
    fold (replace coma [punto] (replace punto [] (map intercambiar r))).
    rewrite IH.
    change (replace coma [] (c :: r))
      with ((if (c =? coma)%N then [] else [c]) ++ replace coma [] r).
    f_equal. unfold intercambiar.
    destruct (N.eqb_spec c coma) as [->|H1]; [reflexivity|].
    destruct (N.eqb_spec c punto) as [->|H2]; [reflexivity|].
    apply N.eqb_neq in H1, H2. rewrite H2. cbn [flat_map app].
    now rewrite H1.
  - rewrite (replace_sin coma [] s Hc). rewrite replace_uno, map_map.
    rewrite <- (map_id s) at 2. apply map_ext_in. intros c Hin.
    unfold intercambiar.
    destruct (N.eqb_spec c coma) as [->|H1].
    + apply contiene_In in Hin. congruence.
    + destruct (N.eqb_spec c punto) as [->|H2]; [reflexivity|].
      apply N.eqb_neq in H1. now rewrite H1.
Qed.

(** X5: a figure shown by [fmt_num] and typed back into a field.  When the
    formatted text has decimals (a dot), holds no "X" and no whitespace,
    [parse_float_robusto] hands to [float] the formatted text without its
    thousands commas, that is the plain numeral shown.  When it has no dot
    (no decimals asked for), [float] receives the shown text as it is, with
    dots where the thousands separators are. *)
Theorem parse_float_robusto_fmt_num
    (py_float : texto -> Res Q) (formato : Q -> nat -> texto)
    (x : Q) (nd : nat) :
  contiene equis (formato x nd) = false ->
  existsb es_espacio (formato x nd) = false ->
  formato x nd <> [] ->
  (contiene punto (formato x nd) = true ->
   parse_float_robusto py_float (fmt_num formato x nd)
     = py_float (replace coma [] (formato x nd))) /\
  (contiene punto (formato x nd) = false ->
   parse_float_robusto py_float (fmt_num formato x nd)
     = py_float (fmt_num formato x nd)).
Proof.
  intros Hx Hs Hne. unfold fmt_num.
  rewrite (intercambiar_separadores_map _ Hx).
  set (s := formato x nd) in *.
  assert (Hst : strip (map intercambiar s) = map intercambiar s)
    by (apply strip_sin_espacios; rewrite existsb_espacio_intercambiar;
        exact Hs).
  destruct (contiene_map_intercambiar s) as (_ & Hc' & _).
  unfold parse_float_robusto. rewrite Hst.
  destruct (map intercambiar s) as [|c r] eqn:E;
    [destruct s; [congruence | discriminate]|].
  rewrite <- E in *. split; intros Hp.
  - now rewrite normalizar_tras_intercambiar.
  - f_equal. unfold normalizar_separadores. rewrite Hc', Hp. cbn [andb].
    apply replace_sin. now rewrite Hc'.
Qed.

Lemma parse_float_robusto_fmt_num_witness :
  contiene equis [49; 44; 50; 51; 52; 46; 53; 48]%N = false /\
  existsb es_espacio [49; 44; 50; 51; 52; 46; 53; 48]%N = false /\
  contiene punto [49; 44; 50; 51; 52; 46; 53; 48]%N = true /\
  parse_float_robusto (fun s => Ok (inject_Z (Z.of_nat (List.length s))))
    (fmt_num (fun _ _ => [49; 44; 50; 51; 52; 46; 53; 48]%N) 1234.5 2)
  = Ok 7.
Proof.
  split; [reflexivity|]. split; [reflexivity|]. split; [reflexivity|].
  destruct (parse_float_robusto_fmt_num
              (fun s => Ok (inject_Z (Z.of_nat (List.length s))))
              (fun _ _ => [49; 44; 50; 51; 52; 46; 53; 48]%N) 1234.5 2
              eq_refl eq_refl) as [H _]; [discriminate|].
  rewrite (H eq_refl). reflexivity.
Defined.

(** ** The fee over the whole scale *)

Lemma py_min_cases (a b : Q) :
  b < a /\ py_min a b = b \/ a <= b /\ py_min a b = a.
Proof.
  unfold py_min. destruct (Qlt_le_dec b a) as [H|H].
  - left. split; [exact H|]. now rewrite (Qlt_bool_true _ _ H).
  - right. split; [exact H|]. now rewrite (Qlt_bool_false _ _ H).
Qed.

Lemma py_max_cases (a b : Q) :
  a < b /\ py_max a b = b \/ b <= a /\ py_max a b = a.
Proof.
  unfold py_max. destruct (Qlt_le_dec a b) as [H|H].
  - left. split; [exact H|]. now rewrite (Qlt_bool_true _ _ H).
  - right. split; [exact H|]. now rewrite (Qlt_bool_false _ _ H).
Qed.

(** The previous maximum is never negative. *)
Lemma tramo_previo_no_negativo (idx : nat) (pm pp : Q) :
  tramo_previo idx = Ok (pm, pp) -> 0 <= pm /\ 0 <= pp.
Proof.
  intros H.
  do 8 (destruct idx as [|idx];
        [cbn in H; injection H as <- <-; split; discriminate|]).
  unfold tramo_previo, item in H. cbn in H.
  destruct idx; discriminate.
Qed.

(** The fee of a non-negative total lies between 12% and 33% of the total,
    times the multiplier. *)
Lemma honorarios_cotas (x : Q) (a b c : bool) :
  0 <= x ->
  exists h d,
    calcular_uma_p1p2 x a b c = Ok (h, d) /\
    0.12 * multiplicador a b c * x <= h /\
    h <= 0.33 * multiplicador a b c * x.
Proof.
  intros Hx.
  destruct (buscar_tramo_total x) as (idx & t & Hb & _).
  destruct (honorarios_forma_cerrada x a b c idx t Hx Hb)
    as (pm & pp & h & d & Hp & Hc & _ & Hh).
  exists h, d. split; [exact Hc|]. rewrite Hh. clear Hh Hc.
  destruct (buscar_tramo_inv x idx t Hb) as (Hn & Hcase).
  pose proof (multiplicador_pos a b c) as Hm.
  set (m := multiplicador a b c) in *.
  destruct idx as [|idx].
  - cbn in Hn, Hp. injection Hn as <-. injection Hp as <- <-.
    cbn [pct_min]. split; nra.
  - destruct Hcase as [Hin | [Hi _]]; [|discriminate].
    apply en_tramo_rango in Hin. destruct Hin as [Hlo _].
    do 6 (destruct idx as [|idx];
          [ cbn in Hn, Hp; injection Hn as <-; injection Hp as <- <-;
            cbn [pct_min min_uma] in *; split; nra |]).
    destruct idx; discriminate.
Qed.

(** X6: for a non-negative total, both portions lie between 0 and the
    total, and the fee lies between 12% and 33% of the total times the
    multiplier (the lowest minimum rate and the highest maximum rate of the
    scale). *)
Theorem honorarios_acotados (x : Q) (a b c : bool) :
  0 <= x ->
  exists h d,
    calcular_uma_p1p2 x a b c = Ok (h, d) /\
    0 <= p1_uma d <= x /\
    0 <= p2_uma d <= x /\
    0.12 * multiplicador a b c * x <= h <= 0.33 * multiplicador a b c * x.
Proof.
  intros Hx.
  destruct (honorarios_cotas x a b c Hx) as (h & d & Hc & Hlo & Hhi).
  exists h, d. split; [exact Hc|].
  destruct (buscar_tramo_total x) as (idx & t & Hb & Hn).
  destruct (tramo_previo_total idx t Hn) as (pm & pp & Hp).
  rewrite (calcular_uma_p1p2_eq x a b c idx t pm pp Hb Hp) in Hc.
  injection Hc as _ <-. cbn [p1_uma p2_uma].
  destruct (tramo_previo_no_negativo idx pm pp Hp) as [Hpm _].
  destruct (py_min_cases x pm) as [[H1 ->]|[H1 ->]].
  - destruct (py_max_cases 0 (x - pm)) as [[H2 ->]|[H2 ->]];
      repeat split; lra.
  - destruct (py_max_cases 0 (x - x)) as [[H2 ->]|[H2 ->]];
      repeat split; lra.
Qed.

Lemma honorarios_acotados_witness :
  0 <= 100 /\
  exists h d,
    calcular_uma_p1p2 100 true true true = Ok (h, d) /\
    0.12 * multiplicador true true true * 100 <= h
      <= 0.33 * multiplicador true true true * 100.
Proof.
  split; [discriminate|].
  destruct (honorarios_acotados 100 true true true) as (h & d & Hc & _ & _ & Hh);
    [discriminate|].
  exists h, d. split; [exact Hc | exact Hh].
Defined.


Lemma negativo_sin_tramo (x : Q) :
  x < 0 -> forall t, In t ESCALA -> en_tramo t x = false.
Proof.
  intros Hx t Hin. unfold ESCALA in Hin. cbn [In] in Hin.
  repeat (destruct Hin as [<-|Hin]); try contradiction; fuera_de_tramo.
Qed.

(** X8: a negative total is in no bracket; [buscar_tramo] answers with its
    fallback, the whole (negative) total goes to P1 at the rate 0, P2 is 0,
    and the fee is zero. *)
Theorem honorarios_total_negativo (x : Q) (a b c : bool) :
  x < 0 ->
  buscar_tramo x = Ok (0%nat, mkTramo 0 (Some 15) 0.22 0.33) /\
  exists h d,
    calcular_uma_p1p2 x a b c = Ok (h, d) /\
    p1_uma d = x /\ p2_uma d = 0 /\ pct_p1_eff d == 0 /\ h == 0.
Proof.
  intros Hx.
  pose proof (sin_tramo_fallback x (negativo_sin_tramo x Hx)) as Hb.
  split; [exact Hb|]. eexists _, _.
  split; [exact (calcular_uma_p1p2_eq x a b c 0 _ 0 0 Hb eq_refl)|].
  cbn [p1_uma p2_uma pct_p1_eff].
  assert (E1 : py_min x 0 = x) by (unfold py_min; decide_cmp; reflexivity).
  rewrite E1.
  assert (E2 : py_max 0 (x - x) = 0)
    by (unfold py_max; decide_cmp; reflexivity).
  rewrite E2. split; [reflexivity|]. split; [reflexivity|]. split; ring.
Qed.

Lemma honorarios_total_negativo_witness :
  - (5) < 0 /\
  exists h d,
    calcular_uma_p1p2 (- (5)) true false true = Ok (h, d) /\ h == 0.
Proof.
  split; [reflexivity|].
  destruct (honorarios_total_negativo (- (5)) true false true)
    as (_ & h & d & Hc & _ & _ & _ & Hh); [reflexivity|].
  exists h, d. split; [exact Hc | exact Hh].
Defined.









(** ** The calculation as a whole *)






(** X13: the conversion to pesos at payment is optional: with the payment
    field blank, or holding a value that is zero or negative, the result is
    shown without it; with a positive value it is the fee in UMA times that
    value; the value never changes the fee in UMA; but a payment text that
    does not parse makes the whole calculation fail with the parse error,
    although every other field is valid. *)
Theorem conversion_al_pago cap int corte fcalc to tm uma a b c :
  date_geb corte fcalc = false -> ~ 100 + to == 0 -> 0 < uma ->
  exists s0,
    calcular_try (formulario_de cap int corte fcalc to tm uma a b c None)
      = Ok s0 /\
    pesos_pago s0 = None /\
    (forall v, exists s,
       calcular_try (formulario_de cap int corte fcalc to tm uma a b c (Some v))
         = Ok s /\
       honor_uma s = honor_uma s0 /\
       (v <= 0 -> pesos_pago s = None) /\
       (0 < v -> pesos_pago s = Some (honor_uma s0 * v))) /\
    (forall e,
       calcular_try (mkFormulario (Ok cap) (Ok int) corte fcalc (Ok to)
                       (Ok tm) (Ok uma) a b c (Some (Raise e)))
         = Raise e).
Proof.
  intros Hd Ht Hu.
  destruct (calcular_try_Ok cap int corte fcalc to tm uma a b c None
              Hd Ht Hu) as (h & d & Hc & Hs).
  eexists. split; [exact Hs|]. split; [reflexivity|]. split.
  - intros v.
    destruct (calcular_try_Ok cap int corte fcalc to tm uma a b c (Some v)
                Hd Ht Hu) as (h' & d' & Hc' & Hs').
    cbv zeta in Hc, Hc'. rewrite Hc in Hc'. injection Hc' as <- <-.
    eexists. split; [exact Hs'|]. cbn [honor_uma pesos_pago].
    split; [reflexivity|]. split; intros Hv.
    + now rewrite (Qlt_bool_false 0 v Hv).
    + now rewrite (Qlt_bool_true 0 v Hv).
  - intros e. unfold calcular_try.
    cbn [bind edt_cap_planilla edt_int_planilla dt_corte dt_calculo edt_to
         edt_tm edt_uma_calc chk_apoderado chk_mitad41 chk_sin_exc
         edt_uma_pago].
    rewrite Hd. cbn [bind]. rewrite (py_div_Ok _ _ Ht). cbn [bind].
    rewrite (Qle_bool_false uma 0 Hu). cbn [bind].
    rewrite py_div_Ok by lra. cbn [bind].
    cbv zeta in Hc. rewrite Hc. reflexivity.
Qed.

Lemma conversion_al_pago_witness :
  date_geb (mkDate 2024 1 31) (mkDate 2024 6 30) = false /\
  ~ 100 + 62.15 == 0 /\ 0 < 20567.79 /\
  exists s,
    calcular_try (formulario_de 15000000 5000000 (mkDate 2024 1 31)
                    (mkDate 2024 6 30) 62.15 74.80 20567.79
                    true true true (Some 0)) = Ok s /\
    pesos_pago s = None.
Proof.
  split; [reflexivity|]. split; [discriminate|]. split; [reflexivity|].
  destruct (conversion_al_pago 15000000 5000000 (mkDate 2024 1 31)
              (mkDate 2024 6 30) 62.15 74.80 20567.79 true true true)
    as (s0 & _ & _ & Hv & _); [reflexivity | discriminate | reflexivity |].
  destruct (Hv 0) as (s & Hs & _ & Hle & _).
  exists s. split; [exact Hs|]. apply Hle. discriminate.
Defined.



(** ** limpiar *)



(** ** The lookup on the totals the scale covers *)

(** X16: when a total lies within a bracket of the scale, that bracket is
    the only one that contains it and [buscar_tramo] returns it, with its
    index; and every whole, non-negative number of UMA lies within a
    bracket. *)
Theorem buscar_tramo_en_escala :
  (forall x t,
     In t ESCALA -> en_tramo t x = true ->
     (forall t', In t' ESCALA -> en_tramo t' x = true -> t' = t) /\
     exists idx, buscar_tramo x = Ok (idx, t) /\
                 nth_error ESCALA idx = Some t) /\
  (forall n : Z, (0 <= n)%Z -> en_escala (inject_Z n)).
Proof.
  split.
  - intros x t Hin He. split.
    + intros t' Hin' He'. exact (en_tramo_unico x t' t Hin' Hin He' He).
    + exact (buscar_tramo_en_tramo x t Hin He).
  - intros n Hn. exact (entero_en_tramo n Hn).
Qed.

Lemma buscar_tramo_en_escala_witness :
  (0 <= 450)%Z /\ en_escala (inject_Z 450) /\
  exists idx,
    buscar_tramo 450 = Ok (idx, mkTramo 151 (Some 450) 0.15 0.20).
Proof.
  destruct buscar_tramo_en_escala as [H1 H2].
  split; [discriminate|]. split; [apply H2; discriminate|].
  destruct (H1 450 (mkTramo 151 (Some 450) 0.15 0.20)) as (_ & idx & Hb & _);
    [cbn; tauto | reflexivity |].
  exists idx. exact Hb.
Defined.

(** X17: the multiplier is always between 0.45 and 1.4 and is 1 only
    when no flag is set; so the fee of a non-negative total is never below
    5.4% nor above 46.2% of the total. *)
Theorem honorarios_cotas_absolutas (x : Q) (a b c : bool) :
  0 <= x ->
  0.45 <= multiplicador a b c <= 1.4 /\
  (multiplicador a b c == 1 <-> a = false /\ b = false /\ c = false) /\
  exists h d,
    calcular_uma_p1p2 x a b c = Ok (h, d) /\
    0.054 * x <= h <= 0.462 * x.
Proof.
  intros Hx.
  assert (Hm : 0.45 <= multiplicador a b c <= 1.4)
    by (destruct a, b, c; split; apply Qle_bool_iff; reflexivity).
  split; [exact Hm|]. split.
  - destruct a, b, c; split;
      first [ intros _; repeat split; reflexivity
            | intros _; reflexivity
            | intros H; vm_compute in H; discriminate
            | intros (? & ? & ?); discriminate ].
  - destruct (honorarios_cotas x a b c Hx) as (h & d & Hc & Hlo & Hhi).
    exists h, d. split; [exact Hc|].
    set (m := multiplicador a b c) in *. split; nra.
Qed.

Lemma honorarios_cotas_absolutas_witness :
  0 <= 1029.5 /\
  exists h d,
    calcular_uma_p1p2 1029.5 true true true = Ok (h, d) /\
    0.054 * 1029.5 <= h <= 0.462 * 1029.5.
Proof.
  split; [discriminate|].
  destruct (honorarios_cotas_absolutas 1029.5 true true true)
    as (_ & _ & h & d & Hc & Hh); [discriminate|].
  exists h, d. split; [exact Hc | exact Hh].
Defined.

(** ** The size of the main window *)

Lemma py_int_nueve_decimos (w : Z) :
  py_int (inject_Z w * 0.9) = Z.quot (w * 9) 10.
Proof. reflexivity. Qed.

(** X18: on a screen of [w] by [h] pixels (not negative) the size asked
    for with [resize] exceeds neither the screen nor 1000 by 760; it is
    1000 wide from 1112 pixels of screen width on and 760 high from 845 on;
    and it is below the minimum size set right after (820 by 640) exactly
    when the screen is narrower than 912 or lower than 712 pixels. *)
Theorem tamano_ventana_cotas (w h : Z) :
  (0 <= w)%Z -> (0 <= h)%Z ->
  let '(ancho, alto) := tamano_ventana w h in
  (0 <= ancho <= w /\ ancho <= 1000 /\ 0 <= alto <= h /\ alto <= 760 /\
   (1112 <= w -> ancho = 1000) /\ (845 <= h -> alto = 760) /\
   (ancho < fst tamano_minimo <-> w < 912) /\
   (alto < snd tamano_minimo <-> h < 712))%Z.
Proof.
  intros Hw Hh. unfold tamano_ventana. rewrite !py_int_nueve_decimos.
  cbn [fst snd tamano_minimo].
  rewrite !Z.quot_div_nonneg by lia.
  pose proof (Z.div_mod (w * 9) 10 ltac:(lia)) as Dw.
  pose proof (Z.mod_pos_bound (w * 9) 10 ltac:(lia)) as Bw.
  pose proof (Z.div_mod (h * 9) 10 ltac:(lia)) as Dh.
  pose proof (Z.mod_pos_bound (h * 9) 10 ltac:(lia)) as Bh.
  repeat split; lia.
Qed.

Lemma tamano_ventana_cotas_witness :
  (0 <= 800)%Z /\ (0 <= 600)%Z /\
  tamano_ventana 800 600 = (720%Z, 540%Z) /\
  (720 < fst tamano_minimo)%Z.
Proof.
  split; [discriminate|]. split; [discriminate|]. split; [reflexivity|].
  pose proof (tamano_ventana_cotas 800 600) as H.
  cbv beta iota zeta in H.
  change (tamano_ventana 800 600) with (720%Z, 540%Z) in H.
  cbv beta iota in H.
  destruct H as (_ & _ & _ & _ & _ & _ & Hmin & _);
    [discriminate | discriminate |].
  apply Hmin. reflexivity.
Defined.
